(** * The to-do list application: task store and its persistence contract

    A shallow embedding of the state logic of the React application
    (the root component [App], the form [TodoForm] and the [FilterBar]),
    followed by the properties of its task-list reducer.

    The file is organised after the sources:
    - [JS]        the fragment of the JavaScript platform the code calls
                  (strings, [String.prototype.trim], truthiness of strings,
                  completions of a [try]/[catch], the [Storage] interface);
    - [Task]      the record [{ id, title, done }];
    - [App]       the state hooks and handlers of the root component;
    - [TodoForm]  the submit handler of the form;
    - [FilterBar] the three filter buttons;
    - [Store]     the application as wired by [App]'s JSX, as a transition
                  system;
    - [Effects]   the two persistence effects of [App] and the tab they
                  write to;
    - [TodoFormView], [FilterBarView], [TodoItem], [TodoList]
                  what the components render, and the delayed delete of
                  the list. *)

From Stdlib Require Import NArith Ascii String.
From HB Require Import structures.
Set Warnings "-notation-overridden".
From mathcomp Require Import ssreflect ssrfun ssrbool eqtype ssrnat seq.
Set Warnings "notation-overridden".

Set Implicit Arguments.
Unset Strict Implicit.
Unset Printing Implicit Defensive.

(** ** The JavaScript platform *)

Module JS.

(** A JavaScript string is a sequence of UTF-16 code units. *)
Definition char16 := N.
Definition jsstring := seq char16.

(** String literals of the sources that are plain ASCII: each character is
    the code unit of the same value. *)
Fixpoint lit (s : string) : jsstring :=
  match s with
  | EmptyString => [::]
  | String c s' => N_of_ascii c :: lit s'
  end.
Arguments lit s%_string.

(** The code units [String.prototype.trim] strips: ECMAScript's WhiteSpace
    (TAB, VT, FF, ZWNBSP and the Unicode space separators) and
    LineTerminator (LF, CR, LS, PS). *)
Definition whiteSpace : seq char16 :=
  [:: 0x0009; 0x000B; 0x000C; 0xFEFF;
      0x0020; 0x00A0; 0x1680;
      0x2000; 0x2001; 0x2002; 0x2003; 0x2004; 0x2005;
      0x2006; 0x2007; 0x2008; 0x2009; 0x200A;
      0x202F; 0x205F; 0x3000]%num.

Definition lineTerminator : seq char16 :=
  [:: 0x000A; 0x000D; 0x2028; 0x2029]%num.

Definition isStripped (c : char16) : bool :=
  (c \in whiteSpace) || (c \in lineTerminator).

Fixpoint trimStart (s : jsstring) : jsstring :=
  if s is c :: s' then (if isStripped c then trimStart s' else s) else [::].

Definition trimEnd (s : jsstring) : jsstring := rev (trimStart (rev s)).

(** [s.trim()] *)
Definition trim (s : jsstring) : jsstring := trimEnd (trimStart s).

(** ToBoolean on a string: only the empty string is falsy. *)
Definition truthy (s : jsstring) : bool := s != [::].

(** Completion of an evaluation: a value, or a thrown exception. *)
Inductive exn := SyntaxError | TypeError.

Inductive completion (A : Type) :=
| Normal (a : A)
| Throw (e : exn).
Arguments Throw {A} e.

Definition bind A B (c : completion A) (k : A -> completion B) : completion B :=
  match c with
  | Normal a => k a
  | Throw e => Throw e
  end.

(** [try { body } catch { handler }] *)
Definition try_catch A (body : completion A) (handler : completion A) :
  completion A :=
  match body with
  | Normal a => Normal a
  | Throw _ => handler
  end.

(** The [Storage] interface behind [localStorage]: string keys to string
    values; [getItem] answers [null] (here [None]) for an absent key. *)
Definition Storage := seq (jsstring * jsstring).

Fixpoint getItem (st : Storage) (key : jsstring) : option jsstring :=
  if st is (k, v) :: st' then (if k == key then Some v else getItem st' key)
  else None.

End JS.

Import JS.

(** ** Tasks *)

Module Task.

(** A task, as [handleAddTodo] builds it and [TodoItem.propTypes] declares
    it: [{ id: string, title: string, done: bool }]. *)
Record t := mk { id : jsstring; title : jsstring; done : bool }.

Definition to_tuple (x : t) := (id x, title x, done x).
Definition of_tuple (p : jsstring * jsstring * bool) := mk p.1.1 p.1.2 p.2.

Lemma tupleK : cancel to_tuple of_tuple.
Proof. by case. Qed.

(** [{ ...x, done: d }] *)
Definition with_done (x : t) (d : bool) : t := mk (id x) (title x) d.

(** The ids of a task sequence, in order. *)
Definition ids (ts : seq t) : seq jsstring := [seq id x | x <- ts].

End Task.

Abbreviation Task := Task.t.

(** Tasks compare field by field. *)
#[warning="-redundant-canonical-projection"]
HB.instance Definition _ := Equality.copy Task (can_type Task.tupleK).

(** ** App.jsx: the root component *)

Module App.

(** The two state hooks of the component. *)
Record State := mkState { todos : seq Task; filter : jsstring }.

Definition setTodos (f : seq Task -> seq Task) (s : State) : State :=
  mkState (f (todos s)) (filter s).

Definition setFilter (v : jsstring) (s : State) : State :=
  mkState (todos s) v.

(** What [JSON.parse] can answer, as far as the component tells values
    apart: an array of task records, of the shape [handleAddTodo] builds
    and [TodoItem.propTypes] declares; a value that is not an array
    ([null], a boolean, a number, a string, an object); or an array some
    element of which is not such a record. *)
Inductive parsed :=
| TaskArray (ts : seq Task)
| NotArray
| OtherArray.

(** What the component reads from the browser when it mounts:
    [localStorage], and [JSON.parse], which on a stored text either throws
    or answers the value the text denotes. *)
Record Platform := mkPlatform {
  localStorage : Storage;
  JSON_parse : jsstring -> completion parsed
}.

(** Lazy initializer of [todos] (lines 24-32): what [JSON.parse] answers
    is returned unchecked. *)
Definition todos_initializer (w : Platform) : completion parsed :=
  try_catch
    (let saved := getItem (localStorage w) (lit "todos") in
     if saved is Some text then
       (if truthy text then JSON_parse w text else Normal (TaskArray [::]))
     else Normal (TaskArray [::]))
    (Normal (TaskArray [::])).

(** Nothing usable under "todos": the key is absent, its text is empty,
    or [JSON.parse] throws on it. *)
Definition nothing_restored (w : Platform) : Prop :=
  getItem (localStorage w) (lit "todos") = None
  \/ getItem (localStorage w) (lit "todos") = Some [::]
  \/ exists2 text,
       getItem (localStorage w) (lit "todos") = Some text
       & exists e, JSON_parse w text = Throw e.

(** Lazy initializer of [filter] (lines 37-40): [saved || "all"]. *)
Definition filter_initializer (w : Platform) : completion jsstring :=
  let saved := getItem (localStorage w) (lit "filter") in
  Normal (if saved is Some text then (if truthy text then text else lit "all")
          else lit "all").

(** The calls [todos.filter(...)] of lines 87, 95 and 96 on the value the
    hook [todos] holds: on an array of task records they give the view
    and the counters; a value that is not an array has no [filter], and
    the call throws a TypeError. An array with other elements is outside
    the task type: this model does not follow it ([None]). *)
Definition render (todos : parsed) (filter : jsstring) :
    option (completion State) :=
  match todos with
  | TaskArray ts => Some (Normal (mkState ts filter))
  | NotArray => Some (Throw TypeError)
  | OtherArray => None
  end.

(** First render (lines 24-96): both initializers run, in the order of
    the hooks, then the body filters [todos]. *)
Definition mount (w : Platform) : option (completion State) :=
  match todos_initializer w, filter_initializer w with
  | Normal todos, Normal filter => render todos filter
  | Throw e, _ => Some (Throw e)
  | _, Throw e => Some (Throw e)
  end.

(** [handleAddTodo] (lines 64-67); [uuid] is what the call of
    [crypto.randomUUID()] on line 65 returned. *)
Definition handleAddTodo (uuid : jsstring) (title : jsstring) : State -> State :=
  let newTodo := Task.mk uuid title false in
  setTodos (fun prev => prev ++ [:: newTodo]).

(** The arrow function [map] is given on line 75:
    [t => t.id === id ? { ...t, done: !t.done } : t]. *)
Definition flip (id : jsstring) (t : Task) : Task :=
  if Task.id t == id then Task.with_done t (~~ Task.done t) else t.

(** [handleToggleTodo] (lines 74-76). *)
Definition handleToggleTodo (id : jsstring) : State -> State :=
  setTodos (fun prev => [seq flip id t | t <- prev]).

(** [handleDeleteTodo] (lines 80-82). *)
Definition handleDeleteTodo (id : jsstring) : State -> State :=
  setTodos (fun prev => [seq t <- prev | Task.id t != id]).

(** [filteredTodos] (lines 87-91). *)
Definition filteredTodos (s : State) : seq Task :=
  [seq todo <- todos s |
     if filter s == lit "active" then ~~ Task.done todo
     else if filter s == lit "done" then Task.done todo
     else true].

(** [pendingCount] and [doneCount] (lines 95-96). *)
Definition pendingCount (s : State) : nat :=
  size [seq t <- todos s | ~~ Task.done t].

Definition doneCount (s : State) : nat :=
  size [seq t <- todos s | Task.done t].

End App.

(** ** TodoForm.jsx: the form that adds a task *)

Module TodoForm.

(** The two state hooks of the form: the text of the input field and the
    validation message (empty when there is none). *)
Record State := mkState { title : jsstring; error : jsstring }.

Definition initial : State := mkState [::] [::].

Definition setTitle (v : jsstring) (s : State) : State := mkState v (error s).
Definition setError (v : jsstring) (s : State) : State := mkState (title s) v.

(** The message of line 15; its two accented letters are U+00ED. *)
Definition emptyTitleMessage : jsstring :=
  lit "El t" ++ [:: 0xED%num] ++ lit "tulo no puede estar vac"
  ++ [:: 0xED%num] ++ lit "o".

(** [handleSubmit] (lines 11-21). [onAdd] is the prop of the component: an
    action of the parent, run on the parent's state [p]. *)
Definition handleSubmit (Parent : Type) (onAdd : jsstring -> Parent -> Parent)
    (s : State) (p : Parent) : State * Parent :=
  let trimmedTitle := trim (title s) in
  if ~~ truthy trimmedTitle then
    (setError emptyTitleMessage s, p)
  else
    (setError [::] (setTitle [::] s), onAdd trimmedTitle p).

(** [onChange] of the input field (line 29). *)
Definition onChange (value : jsstring) (s : State) : State :=
  let s' := setTitle value s in
  if truthy (error s) then setError [::] s' else s'.

End TodoForm.

(** ** FilterBar.jsx: the three filter buttons *)

Module FilterBar.

(** The filter modes, one per button. *)
Inductive FilterMode := All | Active | Done.

(** The [filters] table (lines 7-11): value and label of each button. *)
Definition filters : seq (jsstring * jsstring) :=
  [:: (lit "all", lit "Todas");
      (lit "active", lit "Pendientes");
      (lit "done", lit "Hechas")].

(** The value the button of a mode passes to [onFilterChange] (line 18). *)
Definition value (m : FilterMode) : jsstring :=
  match m with
  | All => lit "all"
  | Active => lit "active"
  | Done => lit "done"
  end.

End FilterBar.

(** ** The store: the components as [App] wires them *)

Module Store.

(** The state of the session: [App]'s hooks and the form's. *)
Record State := mkState { app : App.State; form : TodoForm.State }.

(** What the user can do. [Submit uuid] submits the form; [uuid] is the
    answer of [crypto.randomUUID()], asked only when a task is added. *)
Inductive Event :=
| Input (text : jsstring)
| Submit (uuid : jsstring)
| Toggle (id : jsstring)
| Delete (id : jsstring)
| SetFilter (m : FilterBar.FilterMode).

(** [<TodoForm onAdd={handleAddTodo} />],
    [<FilterBar onFilterChange={setFilter} />],
    [<TodoList onToggle={handleToggleTodo} onDelete={handleDeleteTodo} />]. *)
Definition step (s : State) (e : Event) : State :=
  match e with
  | Input text => mkState (app s) (TodoForm.onChange text (form s))
  | Submit uuid =>
      let: (f, a) := TodoForm.handleSubmit (App.handleAddTodo uuid) (form s) (app s) in
      mkState a f
  | Toggle id => mkState (App.handleToggleTodo id (app s)) (form s)
  | Delete id => mkState (App.handleDeleteTodo id (app s)) (form s)
  | SetFilter m => mkState (App.setFilter (FilterBar.value m) (app s)) (form s)
  end.

Definition run (s : State) (es : seq Event) : State := foldl step s es.

(** The session after the first render. *)
Definition start (w : App.Platform) : option (completion State) :=
  omap (fun c => bind c (fun a => Normal (mkState a TodoForm.initial)))
       (App.mount w).

(** The operations of the store. [add uuid T]: the user writes [T] in the
    input field and submits the form. *)
Definition add (uuid T : jsstring) (s : State) : State :=
  run s [:: Input T; Submit uuid].

Definition toggle (id : jsstring) (s : State) : State := step s (Toggle id).
Definition delete (id : jsstring) (s : State) : State := step s (Delete id).
Definition setFilter (m : FilterBar.FilterMode) (s : State) : State :=
  step s (SetFilter m).

Definition tasks (s : State) : seq Task := App.todos (app s).

(** The derived view and the counters the footer shows. *)
Definition derivedView (s : State) : seq Task := App.filteredTodos (app s).
Definition pending (s : State) : nat := App.pendingCount (app s).
Definition completed (s : State) : nat := App.doneCount (app s).

(** Which tasks a filter mode shows. *)
Definition shown (m : FilterBar.FilterMode) (t : Task) : bool :=
  match m with
  | FilterBar.All => true
  | FilterBar.Active => Task.done t == false
  | FilterBar.Done => Task.done t == true
  end.




End Store.

(** ** App.jsx: the two persistence effects *)

Module Effects.

(** [localStorage.setItem]: the value of a key that is there is replaced
    in place; a new key goes to the end. The quota is not modelled: the
    call always succeeds. *)
Fixpoint setItem (st : Storage) (key value : jsstring) : Storage :=
  if st is (k, v) :: st' then
    (if k == key then (k, value) :: st' else (k, v) :: setItem st' key value)
  else [:: (key, value)].

Section Serializer.

(** [JSON.stringify] on a task array, as the browser provides it. *)
Variable JSON_stringify : seq Task -> jsstring.

(** The effect of lines 46-48, run when [todos] has changed. *)
Definition saveTodos (a : App.State) (st : Storage) : Storage :=
  setItem st (lit "todos") (JSON_stringify (App.todos a)).

(** The effect of lines 52-54, run when [filter] has changed. *)
Definition saveFilter (a : App.State) (st : Storage) : Storage :=
  setItem st (lit "filter") (App.filter a).

(** A tab: the session and what [localStorage] holds. *)
Record Tab := mkTab { session : Store.State; stored : Storage }.

(** Mounting: the first render, then both effects in the order of the
    hooks. *)
Definition open (w : App.Platform) : option (completion Tab) :=
  omap (fun c => bind c (fun s =>
    Normal (mkTab s
      (saveFilter (Store.app s) (saveTodos (Store.app s) (App.localStorage w))))))
    (Store.start w).

(** An event, then the effects whose dependency has changed: [setTodos]
    always installs a new array ([map], [filter] and the spread build
    one), so the [todos] effect runs after every toggle, delete and
    accepted submit; [filter] is a string, compared by value. The form's
    own state is no dependency of either effect. *)
Definition step (b : Tab) (e : Store.Event) : Tab :=
  let s := session b in
  let s' := Store.step s e in
  let st := stored b in
  mkTab s'
    match e with
    | Store.Input _ => st
    | Store.Submit _ =>
        if truthy (trim (TodoForm.title (Store.form s)))
        then saveTodos (Store.app s') st else st
    | Store.Toggle _ | Store.Delete _ => saveTodos (Store.app s') st
    | Store.SetFilter _ =>
        if App.filter (Store.app s') == App.filter (Store.app s) then st
        else saveFilter (Store.app s') st
    end.

Definition run (b : Tab) (es : seq Store.Event) : Tab := foldl step b es.

(** What the storage holds is what the state is. *)
Definition in_sync (b : Tab) : bool :=
  (getItem (stored b) (lit "todos")
   == Some (JSON_stringify (Store.tasks (session b))))
  && (getItem (stored b) (lit "filter")
      == Some (App.filter (Store.app (session b)))).

End Serializer.

End Effects.

(** ** TodoForm.jsx: what the form renders *)

Module TodoFormView.

(** [disabled={!title.trim()}] of the submit button (line 36). *)
Definition disabled (s : TodoForm.State) : bool :=
  ~~ truthy (trim (TodoForm.title s)).

(** [aria-invalid={!!error}] (line 33) and the alert paragraph of line 40,
    rendered when [error] is truthy. *)
Definition ariaInvalid (s : TodoForm.State) : bool := truthy (TodoForm.error s).
Definition alert (s : TodoForm.State) : option jsstring :=
  if truthy (TodoForm.error s) then Some (TodoForm.error s) else None.

End TodoFormView.

(** ** FilterBar.jsx: what the bar renders *)

Module FilterBarView.

(** One rendered button: its key, the props of lines 19-20, its label. *)
Record ButtonProps := mkButton {
  key : jsstring; variant : jsstring; className : jsstring; label : jsstring
}.

(** The [map] of lines 15-24 for the current [filter]. *)
Definition render (filter : jsstring) : seq ButtonProps :=
  [seq mkButton f.1
         (if filter == f.1 then lit "default" else lit "outline")
         (if filter == f.1 then lit "filter-btn active" else lit "filter-btn")
         f.2
  | f <- FilterBar.filters].

(** The buttons shown as selected. *)
Definition selected (filter : jsstring) : seq jsstring :=
  [seq key b | b <- render filter & className b == lit "filter-btn active"].

End FilterBarView.

(** ** TodoItem.jsx and TodoList.jsx: the list and its delayed delete *)

Module TodoItem.

(** The DOM id of the checkbox and the [htmlFor] of the label:
    [`todo-${todo.id}`]. *)
Definition checkboxId (todo : Task) : jsstring := lit "todo-" ++ Task.id todo.

End TodoItem.

Module TodoList.

(** The state of the page: the session, the hook [exitingId] of the list
    ([null] is [None]), and the callbacks [setTimeout] holds, oldest
    first, each known by the id its closure captured. All have the same
    delay, so they fire in the order they were set. *)
Record State := mkState {
  session : Store.State;
  exitingId : option jsstring;
  timers : seq jsstring
}.

Definition initial (s : Store.State) : State := mkState s None [::].

(** [handleDelete] (lines 45-51), up to the call of [setTimeout]. *)
Definition handleDelete (id : jsstring) (u : State) : State :=
  mkState (session u) (Some id) (timers u ++ [:: id]).

(** The callback of line 47 when it fires:
    [onDelete(id); setExitingId(null)]. *)
Definition timeout (u : State) : State :=
  if timers u is id :: rest then
    mkState (Store.delete id (session u)) None rest
  else u.

(** What happens on the page: the user acts on the form, a checkbox or a
    filter button, clicks the delete button of a row, or the oldest timer
    fires. *)
Inductive Event :=
| User (e : Store.Event)
| ClickDelete (id : jsstring)
| Timeout.

Definition step (u : State) (e : Event) : State :=
  match e with
  | User e => mkState (Store.step (session u) e) (exitingId u) (timers u)
  | ClickDelete id => handleDelete id u
  | Timeout => timeout u
  end.

Definition run (u : State) (es : seq Event) : State := foldl step u es.

(** The class of the row of a task (line 103). *)
Definition rowClassName (exiting : option jsstring) (todo : Task) : jsstring :=
  lit "todo-item " ++ (if exiting == Some (Task.id todo) then lit "exit" else [::]).

(** One rendered row: its React key, its class, the id of its checkbox. *)
Record Row := mkRow { key : jsstring; className : jsstring; inputId : jsstring }.

(** What the component returns for the [todos] it is given (lines 61-108):
    [None] is the message "No hay tareas para mostrar". *)
Definition render (exiting : option jsstring) (todos : seq Task) :
    option (seq Row) :=
  if size todos == 0 then None
  else Some [seq mkRow (Task.id todo) (rowClassName exiting todo)
                       (TodoItem.checkboxId todo)
            | todo <- todos].

(** The list as [App] renders it: [<TodoList todos={filteredTodos} />]. *)
Definition view (u : State) : option (seq Row) :=
  render (exitingId u) (Store.derivedView (session u)).

(** The row marked as leaving has its removal scheduled. *)
Definition marked_is_scheduled (u : State) : bool :=
  if exitingId u is Some id then id \in timers u else true.

(** Every pending timer fires, and nothing else happens meanwhile. *)
Definition drain (u : State) : State :=
  run u (nseq (size (timers u)) Timeout).

End TodoList.

(** ** What stays true in a session *)

Module Inv.

(** A title as the form hands it to [onAdd]: not empty, and with nothing
    left for [trim] to strip. *)
Definition trimmed (s : jsstring) : bool := (s != [::]) && (trim s == s).

Definition titled (s : Store.State) : bool :=
  all (fun t => trimmed (Task.title t)) (Store.tasks s).

(** The filter is the value of one of the three buttons. *)
Definition valid_filter (s : Store.State) : bool :=
  App.filter (Store.app s) \in [seq f.1 | f <- FilterBar.filters].

Definition sets_filter (e : Store.Event) : bool :=
  if e is Store.SetFilter _ then true else false.

(** The validation message is on display only over a blank field. *)
Definition alert_means_blank (s : Store.State) : bool :=
  TodoFormView.ariaInvalid (Store.form s)
  ==> TodoFormView.disabled (Store.form s).

End Inv.

(** ** Sessions the properties are tried on *)

Module Session.

(** Two ids as [crypto.randomUUID()] prints them, and one it never gave. *)
Definition uuid1 : jsstring := lit "3f2b1c9e-7a4d-4e2b-9c1a-5d6e7f8091a2".
Definition uuid2 : jsstring := lit "0b7e4d21-55c3-4f0a-8e6d-1a2b3c4d5e6f".
Definition uuid3 : jsstring := lit "c0ffee00-1234-4abc-9def-0123456789ab".

(** A browser whose [JSON.parse] is given by its answers on the texts the
    session stores: the value listed for a listed text; a text that is not
    listed is one [JSON.parse] rejects. *)
Fixpoint answer (parses : seq (jsstring * App.parsed)) (text : jsstring) :
    completion App.parsed :=
  if parses is (k, v) :: parses' then
    (if k == text then Normal v else answer parses' text)
  else Throw SyntaxError.

Definition browser (st : Storage) (parses : seq (jsstring * App.parsed)) :
    App.Platform :=
  App.mkPlatform st (answer parses).

(** Nothing stored: the first visit. *)
Definition first_visit : App.Platform := browser [::] [::].

Definition empty : Store.State :=
  Store.mkState (App.mkState [::] (lit "all")) TodoForm.initial.

(** The scenario of the specification: two tasks added, the first one
    toggled, the filter set to Done. *)
Definition shopping : seq Store.Event :=
  [:: Store.Input (lit "Buy milk"); Store.Submit uuid1;
      Store.Input (lit "Walk dog"); Store.Submit uuid2;
      Store.Toggle uuid1;
      Store.SetFilter FilterBar.Done].

(** A stored filter that is none of the three values, and a stored text
    that is not JSON. *)
Definition corrupted : App.Platform :=
  browser [:: (lit "todos", lit "{oops"); (lit "filter", lit "urgent")] [::].

(** The JSON text of an array of tasks whose ids, titles are plain (no
    character to escape), as [JSON.stringify] writes it on line 47. *)
Definition quoted (s : jsstring) : jsstring := [:: 0x22%num] ++ s ++ [:: 0x22%num].

Definition task_text (t : Task) : jsstring :=
  lit "{" ++ quoted (lit "id") ++ lit ":" ++ quoted (Task.id t)
  ++ lit "," ++ quoted (lit "title") ++ lit ":" ++ quoted (Task.title t)
  ++ lit "," ++ quoted (lit "done") ++ lit ":"
  ++ (if Task.done t then lit "true" else lit "false") ++ lit "}".

Fixpoint tasks_text (ts : seq Task) : jsstring :=
  match ts with
  | [::] => [::]
  | [:: t] => task_text t
  | t :: ts' => task_text t ++ lit "," ++ tasks_text ts'
  end.

Definition array_text (ts : seq Task) : jsstring :=
  lit "[" ++ tasks_text ts ++ lit "]".

(** A stored list in which one id occurs twice. *)
Definition twice : seq Task :=
  [:: Task.mk uuid1 (lit "Buy milk") false;
      Task.mk uuid1 (lit "Walk dog") true].

Definition edited : App.Platform :=
  browser [:: (lit "todos", array_text twice)]
          [:: (array_text twice, App.TaskArray twice)].

(** The state that list makes. *)
Definition doubled : Store.State :=
  Store.mkState (App.mkState twice (lit "all")) TodoForm.initial.

(** A store holding the JSON text [null] under "todos". *)
Definition nulled : App.Platform :=
  browser [:: (lit "todos", lit "null")] [:: (lit "null", App.NotArray)].

(** The state at the end of the scenario: two tasks, filter Done. *)
Definition busy : Store.State := Store.run empty shopping.

(** A state whose filter is the unknown value of the corrupted store. *)
Definition odd_filter : Store.State :=
  Store.mkState (App.mkState (Store.tasks busy) (lit "urgent")) TodoForm.initial.

End Session.

(** ** A reload and a page, for the later properties *)

Module Visit.

(** A browser that has nothing stored and reads back the list of the
    scenario from its JSON text. *)
Definition reloading : App.Platform :=
  Session.browser [::]
    [:: (Session.array_text (Store.tasks Session.busy),
         App.TaskArray (Store.tasks Session.busy))].

(** The page at the end of the scenario: filter Done, no row leaving. *)
Definition page : TodoList.State := TodoList.initial Session.busy.

Definition page_rows : seq TodoList.Row :=
  [:: TodoList.mkRow Session.uuid1 (lit "todo-item ")
        (lit "todo-" ++ Session.uuid1)].

(** The first task of the scenario, before and after it was toggled. *)
Definition milk : Task := Task.mk Session.uuid1 (lit "Buy milk") true.

(** The form with a title typed in. *)
Definition typed : Store.State :=
  Store.step Session.busy (Store.Input (lit " Feed cat")).

End Visit.

(** * Properties *)

(** ** Trimming *)

Section Trim.

Lemma trimStart_blank (s : jsstring) : all isStripped s -> trimStart s = [::].
Proof. by elim: s => [|c s IH] //= /andP [-> /IH]. Qed.

Lemma trimStart_nil_blank (s : jsstring) : trimStart s = [::] -> all isStripped s.
Proof. by elim: s => [|c s IH] //=; case: (isStripped c). Qed.

(** [trimStart] drops a prefix of stripped code units. *)
Lemma trimStart_suffix (s : jsstring) :
  exists2 p, all isStripped p & s = p ++ trimStart s.
Proof.
elim: s => [|c s [p Hp Hs]] /=; first by exists [::].
case E: (isStripped c); last by exists [::].
by exists (c :: p); rw /= ?E // -Hs.
Qed.

(** A title is empty after trimming exactly when it is blank: every code
    unit of it is white space or a line terminator. *)
Lemma trim_blankP (s : jsstring) : (trim s == [::]) = all isStripped s.
Proof.
apply/idP/idP => [/eqP H|H]; last by rw /trim trimStart_blank.
have [p Hp Hs] := trimStart_suffix s.
move: H; rw /trim /trimEnd => /(congr1 rev); rw revK /= => H.
by rw Hs all_cat Hp /= -all_rev; apply: trimStart_nil_blank.
Qed.

End Trim.

(** ** The reducer on task sequences *)

Section Reducer.

Implicit Types (ts prev : seq Task) (t : Task) (i : jsstring).

Import App.

Lemma flip_id i t : Task.id (flip i t) = Task.id t.
Proof. by rw /flip; case: ifP. Qed.

Lemma flipK i : involutive (flip i).
Proof.
move=> [j T d]; rw /flip /=; case E: (j == i); rw /= ?E //.
by rw /Task.with_done /= negbK.
Qed.

Lemma flip_other i t : Task.id t != i -> flip i t = t.
Proof. by rw /flip => /negbTE ->. Qed.

Lemma ids_flip i ts : Task.ids [seq flip i t | t <- ts] = Task.ids ts.
Proof. by rw /Task.ids -map_comp; apply: eq_map => t /=; rw flip_id. Qed.

Lemma ids_delete i ts :
  Task.ids [seq t <- ts | Task.id t != i] = [seq j <- Task.ids ts | j != i].
Proof. by rw /Task.ids filter_map. Qed.

(** Toggling or deleting an id no task carries changes nothing. *)
Lemma flip_absent i ts : i \notin Task.ids ts -> [seq flip i t | t <- ts] = ts.
Proof.
elim: ts => [|t ts IH] //=; rw inE negb_or eq_sym => /andP [Ht /IH ->].
by rw flip_other.
Qed.

Lemma delete_absent i ts :
  i \notin Task.ids ts -> [seq t <- ts | Task.id t != i] = ts.
Proof.
move=> Hi; apply/all_filterP/allP => t Ht.
by apply: contraNneq Hi => <-; apply: map_f.
Qed.

(** A sequence with unique ids splits around the one task that carries a
    given id. *)
Lemma split_at_id i ts :
  uniq (Task.ids ts) -> i \in Task.ids ts ->
  exists l1 t l2,
    [/\ ts = l1 ++ t :: l2, Task.id t = i,
        i \notin Task.ids l1 & i \notin Task.ids l2].
Proof.
elim: ts => [|t ts IH] //=; rw inE => /andP [Ht Hu].
case E: (i == Task.id t) => /=.
  move=> _; exists [::], t, ts; split=> //; first by rw (eqP E).
  by rw (eqP E).
move=> /(IH Hu) [l1 [t' [l2 [-> Hid H1 H2]]]].
exists (t :: l1), t', l2; split=> //.
by rw /= inE E.
Qed.

End Reducer.

(** ** Toggle, delete and unknown ids *)

Section ToggleDelete.

Implicit Types (s : Store.State) (X : jsstring).

Lemma tasks_toggle X s :
  Store.tasks (Store.toggle X s) = [seq App.flip X t | t <- Store.tasks s].
Proof. by []. Qed.

Lemma tasks_delete X s :
  Store.tasks (Store.delete X s) = [seq t <- Store.tasks s | Task.id t != X].
Proof. by []. Qed.

(** C3, as the code has it. In every state, [toggle X] replaces each task
    whose id is X by a copy with the same id and title and the opposite
    [done], and leaves every other task and the order as they are. When
    the ids are unique and X is the id of a task of the sequence, that is
    exactly one task: the tasks before and after it are the same.
    Toggling twice gives back the original sequence. *)
Theorem toggle_flips_tasks_with_id s X :
  [/\ Store.tasks (Store.toggle X s)
      = [seq (if Task.id t == X
              then Task.mk (Task.id t) (Task.title t) (~~ Task.done t)
              else t)
        | t <- Store.tasks s],
      uniq (Task.ids (Store.tasks s)) -> X \in Task.ids (Store.tasks s) ->
      exists l1 t l2,
        [/\ Store.tasks s = l1 ++ t :: l2,
            Task.id t = X
          & Store.tasks (Store.toggle X s)
            = l1 ++ Task.mk (Task.id t) (Task.title t) (~~ Task.done t) :: l2]
    & Store.tasks (Store.toggle X (Store.toggle X s)) = Store.tasks s].
Proof.
split.
- by [].
- move=> Hu HX.
  have [l1 [t [l2 [E Ht H1 H2]]]] := split_at_id Hu HX.
  exists l1, t, l2; split=> //.
  rw tasks_toggle E map_cat /= !flip_absent //.
  by rw /App.flip -Ht eqxx.
- by rw !tasks_toggle mapK //; apply: flipK.
Qed.

(** C4, as the code has it. In every state, [delete X] removes the tasks
    whose id is X and no other: what is left is a subsequence, in the same
    order. When the ids are unique and X is the id of a task of the
    sequence, that is exactly one task: what is left is the tasks before
    it followed by the tasks after it, one task fewer. A second
    [delete X] changes nothing. *)
Theorem delete_removes_tasks_with_id s X :
  [/\ Store.tasks (Store.delete X s)
      = [seq t <- Store.tasks s | Task.id t != X],
      subseq (Store.tasks (Store.delete X s)) (Store.tasks s),
      uniq (Task.ids (Store.tasks s)) -> X \in Task.ids (Store.tasks s) ->
      exists l1 t l2,
        [/\ Store.tasks s = l1 ++ t :: l2,
            Task.id t = X,
            Store.tasks (Store.delete X s) = l1 ++ l2
          & (size (Store.tasks (Store.delete X s))).+1 = size (Store.tasks s)]
    & Store.delete X (Store.delete X s) = Store.delete X s].
Proof.
split.
- by [].
- by rw tasks_delete; apply: filter_subseq.
- move=> Hu HX.
  have [l1 [t [l2 [E Ht H1 H2]]]] := split_at_id Hu HX.
  have D : Store.tasks (Store.delete X s) = l1 ++ l2.
    by rw tasks_delete E filter_cat /= Ht eqxx /= !delete_absent.
  exists l1, t, l2; split=> //.
  by rw D E !size_cat /= addnS.
- case: s => [[ts f] fm]; rw /Store.delete /= /App.handleDeleteTodo.
  by rw /App.setTodos /= filter_id.
Qed.

(** C9. For an id no task of the sequence carries, [toggle] and [delete]
    return the state they were given: nothing changes and nothing is
    signalled. *)
Theorem unknown_id_is_noop s X :
  X \notin Task.ids (Store.tasks s) ->
  Store.toggle X s = s /\ Store.delete X s = s.
Proof.
case: s => [[ts f] fm] /= HX.
rw /Store.toggle /Store.delete /= /App.handleToggleTodo /App.handleDeleteTodo.
by rw /App.setTodos /= flip_absent // delete_absent.
Qed.

End ToggleDelete.

(** ** The derived view and the counters *)

Section View.

Implicit Types (s : Store.State) (ts : seq Task) (t : Task).

Lemma filteredTodos_active ts :
  App.filteredTodos (App.mkState ts (lit "active"))
  = [seq t <- ts | ~~ Task.done t].
Proof. by []. Qed.

Lemma filteredTodos_done ts :
  App.filteredTodos (App.mkState ts (lit "done")) = [seq t <- ts | Task.done t].
Proof. by []. Qed.

Lemma filteredTodos_other ts (f : jsstring) :
  f != lit "active" -> f != lit "done" ->
  App.filteredTodos (App.mkState ts f) = ts.
Proof.
move=> /negbTE Ha /negbTE Hd; rw /App.filteredTodos /= Ha Hd.
exact: filter_predT.
Qed.

(** C5. In a state whose filter is the value of a mode, the derived view is
    the task sequence for All, its tasks with [done = false] for Active and
    its tasks with [done = true] for Done: a subsequence of the task
    sequence (same relative order) that holds a task exactly when the
    sequence holds it and the mode shows it. Computing the view is a
    function of the state and leaves the state as it is. *)
Theorem derivedView_by_mode ts (fm : TodoForm.State) (m : FilterBar.FilterMode) :
  let s := Store.mkState (App.mkState ts (FilterBar.value m)) fm in
  [/\ Store.derivedView s
      = match m with
        | FilterBar.All => ts
        | FilterBar.Active => [seq t <- ts | Task.done t == false]
        | FilterBar.Done => [seq t <- ts | Task.done t == true]
        end,
      Store.derivedView s = [seq t <- ts | Store.shown m t],
      subseq (Store.derivedView s) (Store.tasks s)
    & forall t, (t \in Store.derivedView s) = (t \in Store.tasks s) && Store.shown m t].
Proof.
have E : App.filteredTodos (App.mkState ts (FilterBar.value m))
         = [seq t <- ts | Store.shown m t].
  case: m; rw /FilterBar.value.
  - by rw filteredTodos_other // filter_predT.
  - by rw filteredTodos_active; apply: eq_filter => t; rw /= eqbF_neg.
  - by rw filteredTodos_done; apply: eq_filter => t; rw /= eqb_id.
rw /= /Store.derivedView /Store.tasks /= E; split=> //.
- by case: m {E} => //=; apply: filter_predT.
- exact: filter_subseq.
- by move=> t; rw mem_filter andbC.
Qed.

(** C6. The two counters of the footer add up to the length of the whole
    task sequence, whatever the filter. *)
Theorem counts_add_up s :
  Store.pending s + Store.completed s = size (Store.tasks s).
Proof.
rw /Store.pending /Store.completed /App.pendingCount /App.doneCount.
by rw !size_filter addnC; apply: count_predC.
Qed.

(** C10. With any filter that is neither "active" nor "done", the derived
    view is the whole task sequence, in its order. *)
Theorem other_filter_shows_all s :
  App.filter (Store.app s) != lit "active" ->
  App.filter (Store.app s) != lit "done" ->
  Store.derivedView s = Store.tasks s.
Proof.
case: s => [[ts f] fm] /= Ha Hd.
by rw /Store.derivedView /Store.tasks /= filteredTodos_other.
Qed.

End View.

(** ** Adding a task *)

Section Add.

Implicit Types (s : Store.State) (uuid T : jsstring).

Lemma title_onChange T (f : TodoForm.State) :
  TodoForm.title (TodoForm.onChange T f) = T.
Proof. by rw /TodoForm.onChange; case: ifP. Qed.

(** The form hands [onAdd] the trimmed title, clears the field and the
    message. *)
Lemma handleSubmit_accepts (P : Type) (onAdd : jsstring -> P -> P)
    (f : TodoForm.State) (p : P) :
  trim (TodoForm.title f) != [::] ->
  TodoForm.handleSubmit onAdd f p
  = (TodoForm.mkState [::] [::], onAdd (trim (TodoForm.title f)) p).
Proof. by move=> H; rw /TodoForm.handleSubmit /truthy H. Qed.

(** On a blank title the form keeps the field, sets the message and does
    not call [onAdd]. *)
Lemma handleSubmit_rejects (P : Type) (onAdd : jsstring -> P -> P)
    (f : TodoForm.State) (p : P) :
  trim (TodoForm.title f) = [::] ->
  TodoForm.handleSubmit onAdd f p
  = (TodoForm.mkState (TodoForm.title f) TodoForm.emptyTitleMessage, p).
Proof. by move=> H; rw /TodoForm.handleSubmit /truthy H. Qed.


(** C2. For a title that is empty after trimming, [add] changes neither
    the task sequence nor the filter, leaves the form with the validation
    message (a non-empty string, which the form renders as an alert), and
    keeps the text of the input field. *)
Theorem add_blank_title_rejected s uuid T :
  trim T = [::] ->
  [/\ Store.app (Store.add uuid T s) = Store.app s,
      TodoForm.error (Store.form (Store.add uuid T s))
      = TodoForm.emptyTitleMessage,
      truthy (TodoForm.error (Store.form (Store.add uuid T s)))
    & TodoForm.title (Store.form (Store.add uuid T s)) = T].
Proof.
move=> HT.
by rw /Store.add /Store.run /= handleSubmit_rejects title_onChange.
Qed.

End Add.

(** ** Start-up *)

Section Startup.

Variable w : App.Platform.

Lemma todos_initializer_total :
  exists v, App.todos_initializer w = Normal v.
Proof.
rw /App.todos_initializer.
case: (getItem _ _) => [text|] /=; last by exists (App.TaskArray [::]).
case: (truthy text); last by exists (App.TaskArray [::]).
by case: (App.JSON_parse w text) => [v|e] /=;
  [exists v | exists (App.TaskArray [::])].
Qed.

Lemma nothing_restored_empty :
  App.nothing_restored w -> App.todos_initializer w = Normal (App.TaskArray [::]).
Proof.
rw /App.todos_initializer; case=> [->|[->|[text -> [e /= ->]]]] //.
by case: (truthy text).
Qed.

(** C7, as the code has it. When nothing is stored under "todos", or the
    stored text is empty or does not parse, the task list starts empty
    and the first render completes without an exception. The filter
    starts as "all" when nothing is stored under "filter" or the stored
    text is empty; any other stored text becomes the filter as it is. *)
Theorem startup_fallbacks :
  [/\ App.nothing_restored w ->
      App.todos_initializer w = Normal (App.TaskArray [::]),
      App.nothing_restored w ->
      exists f, Store.start w
                = Some (Normal (Store.mkState (App.mkState [::] f)
                                              TodoForm.initial)),
      (getItem (App.localStorage w) (lit "filter") = None
       \/ getItem (App.localStorage w) (lit "filter") = Some [::]) ->
      App.filter_initializer w = Normal (lit "all")
    & forall text,
        getItem (App.localStorage w) (lit "filter") = Some text ->
        text != [::] ->
        App.filter_initializer w = Normal text].
Proof.
split.
- exact: nothing_restored_empty.
- move/nothing_restored_empty => E.
  by rw /Store.start /App.mount E /=; eexists.
- by rw /App.filter_initializer; case=> ->.
- by move=> text; rw /App.filter_initializer /truthy => -> ->.
Qed.

End Startup.

(** ** Unique ids *)

Section UniqueIds.

Implicit Types (s : Store.State) (e : Store.Event) (es : seq Store.Event).





End UniqueIds.

(** * Worked sessions *)

Section Examples.

Import Session.

Example trim_examples :
  [/\ trim (lit "  Buy milk ") = lit "Buy milk",
      trim (lit "Walk  the dog") = lit "Walk  the dog",
      trim (lit "") = [::],
      trim (lit "   ") = [::]
    & trim [:: 0x09; 0x0A; 0xA0; 0x3000; 0xFEFF]%num = [::]].
Proof. by []. Qed.

Example emptyTitleMessage_length : size TodoForm.emptyTitleMessage = 30.
Proof. by []. Qed.

Example FilterBar_values :
  [seq FilterBar.value m | m <- [:: FilterBar.All; FilterBar.Active; FilterBar.Done]]
  = [seq f.1 | f <- FilterBar.filters].
Proof. by []. Qed.

(** The first visit starts from the empty state. *)
Example first_visit_starts_empty :
  Store.start first_visit = Some (Normal empty).
Proof. by []. Qed.

(** The scenario of the specification. *)
Example shopping_scenario :
  [/\ Store.tasks (Store.run empty shopping)
      = [:: Task.mk uuid1 (lit "Buy milk") true;
            Task.mk uuid2 (lit "Walk dog") false],
      Store.derivedView (Store.run empty shopping)
      = [:: Task.mk uuid1 (lit "Buy milk") true],
      Store.pending (Store.run empty shopping) = 1
    & Store.completed (Store.run empty shopping) = 1].
Proof. by []. Qed.

(** A corrupted store: the list falls back to empty, the filter does not
    fall back. *)
Example corrupted_start :
  Store.start corrupted
  = Some (Normal (Store.mkState (App.mkState [::] (lit "urgent"))
                                TodoForm.initial)).
Proof. by []. Qed.

(** The JSON text [null] under "todos" parses: the initializer returns
    [null], and the first [todos.filter] throws. *)
Example null_breaks_first_render :
  App.todos_initializer nulled = Normal App.NotArray
  /\ Store.start nulled = Some (Throw TypeError).
Proof. by []. Qed.

(** With an id that occurs twice, toggle and delete reach both tasks:
    the handlers select by id. *)
Example repeated_id_toggle_delete :
  let s := Store.mkState (App.mkState twice (lit "all")) TodoForm.initial in
  Store.tasks (Store.toggle uuid1 s)
  = [:: Task.mk uuid1 (lit "Buy milk") true;
        Task.mk uuid1 (lit "Walk dog") false]
  /\ Store.tasks (Store.delete uuid1 s) = [::].
Proof. by []. Qed.

(** A blank title on the first visit: nothing is added, the message is
    set, the field keeps its text. *)
Example blank_titles_on_first_visit :
  Store.add uuid1 (lit "") empty
  = Store.mkState (Store.app empty)
      (TodoForm.mkState (lit "") TodoForm.emptyTitleMessage)
  /\ Store.add uuid1 (lit "   ") empty
     = Store.mkState (Store.app empty)
         (TodoForm.mkState (lit "   ") TodoForm.emptyTitleMessage).
Proof. by []. Qed.

Example array_text_twice :
  array_text twice
  = lit "[{" ++ quoted (lit "id") ++ lit ":" ++ quoted uuid1 ++ lit ","
    ++ quoted (lit "title") ++ lit ":" ++ quoted (lit "Buy milk") ++ lit ","
    ++ quoted (lit "done") ++ lit ":false},{"
    ++ quoted (lit "id") ++ lit ":" ++ quoted uuid1 ++ lit ","
    ++ quoted (lit "title") ++ lit ":" ++ quoted (lit "Walk dog") ++ lit ","
    ++ quoted (lit "done") ++ lit ":true}]".
Proof. by []. Qed.

End Examples.

(** * The theorems at work on the sessions *)

Section Witnesses.

Import Session.



Lemma add_blank_title_rejected_witness :
  [/\ trim (lit "   ") = [::],
      Store.app (Store.add uuid3 (lit "   ") busy) = Store.app busy
    & TodoForm.title (Store.form (Store.add uuid3 (lit "   ") busy)) = lit "   "].
Proof.
have H : trim (lit "   ") = [::] by [].
have [E1 _ _ E2] := add_blank_title_rejected busy uuid3 H.
by split.
Defined.

Lemma toggle_flips_tasks_with_id_witness :
  [/\ uniq (Task.ids (Store.tasks busy)),
      uuid2 \in Task.ids (Store.tasks busy),
      exists l1 t l2,
        [/\ Store.tasks busy = l1 ++ t :: l2,
            Task.id t = uuid2
          & Store.tasks (Store.toggle uuid2 busy)
            = l1 ++ Task.mk (Task.id t) (Task.title t) (~~ Task.done t) :: l2]
    & Store.tasks (Store.toggle uuid2 (Store.toggle uuid2 busy))
      = Store.tasks busy].
Proof.
have H1 : uniq (Task.ids (Store.tasks busy)) by [].
have H2 : uuid2 \in Task.ids (Store.tasks busy) by [].
have [_ D E] := toggle_flips_tasks_with_id busy uuid2.
by split; [exact: H1 | exact: H2 | exact: D | exact: E].
Defined.

Lemma delete_removes_tasks_with_id_witness :
  [/\ uniq (Task.ids (Store.tasks busy)),
      uuid1 \in Task.ids (Store.tasks busy),
      exists l1 t l2,
        [/\ Store.tasks busy = l1 ++ t :: l2,
            Task.id t = uuid1,
            Store.tasks (Store.delete uuid1 busy) = l1 ++ l2
          & (size (Store.tasks (Store.delete uuid1 busy))).+1
            = size (Store.tasks busy)]
    & Store.delete uuid1 (Store.delete uuid1 busy) = Store.delete uuid1 busy].
Proof.
have H1 : uniq (Task.ids (Store.tasks busy)) by [].
have H2 : uuid1 \in Task.ids (Store.tasks busy) by [].
have [_ _ D E] := delete_removes_tasks_with_id busy uuid1.
by split; [exact: H1 | exact: H2 | exact: D | exact: E].
Defined.

Lemma unknown_id_is_noop_witness :
  [/\ uuid3 \notin Task.ids (Store.tasks busy),
      Store.toggle uuid3 busy = busy
    & Store.delete uuid3 busy = busy].
Proof.
have H : uuid3 \notin Task.ids (Store.tasks busy) by [].
have [E1 E2] := unknown_id_is_noop H.
by split.
Defined.

Lemma other_filter_shows_all_witness :
  [/\ App.filter (Store.app odd_filter) != lit "active",
      App.filter (Store.app odd_filter) != lit "done"
    & Store.derivedView odd_filter = Store.tasks odd_filter].
Proof.
have H1 : App.filter (Store.app odd_filter) != lit "active" by [].
have H2 : App.filter (Store.app odd_filter) != lit "done" by [].
have E := other_filter_shows_all H1 H2.
by split.
Defined.


(** The corrupted store: the text under "todos" does not parse, so the
    list starts empty; the text under "filter" is not empty, so it becomes
    the filter. *)
Lemma startup_fallbacks_witness :
  [/\ App.nothing_restored corrupted,
      App.todos_initializer corrupted = Normal (App.TaskArray [::]),
      exists f, Store.start corrupted
                = Some (Normal (Store.mkState (App.mkState [::] f)
                                              TodoForm.initial))
    & App.filter_initializer corrupted = Normal (lit "urgent")].
Proof.
have H : App.nothing_restored corrupted.
  by right; right; exists (lit "{oops") => //; exists SyntaxError.
have [Ht Hs _ Hf] := startup_fallbacks corrupted.
by split; [exact: H | exact: Ht | exact: Hs | exact: Hf].
Defined.

(** C7 as stated fails: a stored filter that is none of "all", "active",
    "done" is not replaced by "all". *)
Lemma stored_invalid_filter_is_kept :
  [/\ getItem (App.localStorage corrupted) (lit "filter") = Some (lit "urgent"),
      lit "urgent" \notin [seq f.1 | f <- FilterBar.filters],
      Store.start corrupted
      = Some (Normal (Store.mkState (App.mkState [::] (lit "urgent"))
                                    TodoForm.initial))
    & App.filter_initializer corrupted <> Normal (lit "all")].
Proof. by []. Qed.

(** C3 as stated fails: in the state restored from a list in which one id
    occurs twice, toggling that id inverts both tasks, not one. *)
Lemma toggle_flips_every_carrier :
  [/\ Store.start edited = Some (Normal doubled),
      uuid1 \in Task.ids (Store.tasks doubled),
      Store.tasks doubled
      = [:: Task.mk uuid1 (lit "Buy milk") false;
            Task.mk uuid1 (lit "Walk dog") true]
    & Store.tasks (Store.toggle uuid1 doubled)
      = [:: Task.mk uuid1 (lit "Buy milk") true;
            Task.mk uuid1 (lit "Walk dog") false]].
Proof. by []. Qed.

(** C4 as stated fails: in the same state, deleting that id removes both
    tasks, not one. *)
Lemma delete_removes_every_carrier :
  [/\ Store.start edited = Some (Normal doubled),
      uuid1 \in Task.ids (Store.tasks doubled),
      size (Store.tasks doubled) = 2
    & size (Store.tasks (Store.delete uuid1 doubled)) = 0].
Proof. by []. Qed.


End Witnesses.

(** * Further properties of the handlers *)

Section Handlers.

Implicit Types (a : App.State) (ts : seq Task) (t : Task) (X Y : jsstring).

Lemma flipC X Y t : App.flip X (App.flip Y t) = App.flip Y (App.flip X t).
Proof.
rw /App.flip; case EX: (Task.id t == X); case EY: (Task.id t == Y);
  by rw /= ?EX ?EY.
Qed.

Lemma delete_flip X Y ts :
  [seq t <- [seq App.flip X t | t <- ts] | Task.id t != Y]
  = [seq App.flip X t | t <- [seq t <- ts | Task.id t != Y]].
Proof.
rw filter_map; congr map; apply: eq_filter => t /=.
by rw flip_id.
Qed.

Lemma ids_deleted X ts : X \notin Task.ids [seq t <- ts | Task.id t != X].
Proof. by rw ids_delete mem_filter eqxx. Qed.

(** X1. [handleDeleteTodo] on any list, repeated ids included: afterwards
    no task carries the id; the tasks kept are exactly those that carried
    another id, in their order; the list is shorter by the number of
    tasks that carried the id. *)
Theorem delete_clears_the_id a X :
  [/\ X \notin Task.ids (App.todos (App.handleDeleteTodo X a)),
      Task.ids (App.todos (App.handleDeleteTodo X a))
      = [seq j <- Task.ids (App.todos a) | j != X],
      forall t, (t \in App.todos (App.handleDeleteTodo X a))
                = (t \in App.todos a) && (Task.id t != X)
    & size (App.todos (App.handleDeleteTodo X a))
      + count (fun t => Task.id t == X) (App.todos a)
      = size (App.todos a)].
Proof.
case: a => ts f /=; split.
- exact: ids_deleted.
- exact: ids_delete.
- by move=> t; rw mem_filter andbC.
- rw size_filter addnC.
  exact: (count_predC (fun t => Task.id t == X)).
Qed.

(** X2. [handleToggleTodo] on any list changes nothing but [done] flags:
    ids, titles, length and filter stay, and a flag is inverted exactly
    when its task carries the id. *)
Theorem toggle_changes_done_only a X :
  [/\ Task.ids (App.todos (App.handleToggleTodo X a)) = Task.ids (App.todos a),
      [seq Task.title t | t <- App.todos (App.handleToggleTodo X a)]
      = [seq Task.title t | t <- App.todos a],
      [seq Task.done t | t <- App.todos (App.handleToggleTodo X a)]
      = [seq Task.done t (+) (Task.id t == X) | t <- App.todos a],
      size (App.todos (App.handleToggleTodo X a)) = size (App.todos a)
    & App.filter (App.handleToggleTodo X a) = App.filter a].
Proof.
case: a => ts f /=; split=> //.
- exact: ids_flip.
- rw -map_comp; apply: eq_map => t /=.
  by rw /App.flip; case: ifP.
- rw -map_comp; apply: eq_map => t /=.
  by rw /App.flip; case: ifP => _; rw /= ?addbT ?addbF.
- by rw size_map.
Qed.

(** X3. The order in which toggles and deletes arrive does not matter, and
    a delete absorbs a toggle of the same id. *)
Theorem handlers_commute a X Y :
  [/\ App.handleToggleTodo X (App.handleToggleTodo Y a)
      = App.handleToggleTodo Y (App.handleToggleTodo X a),
      App.handleDeleteTodo X (App.handleDeleteTodo Y a)
      = App.handleDeleteTodo Y (App.handleDeleteTodo X a),
      App.handleToggleTodo X (App.handleDeleteTodo Y a)
      = App.handleDeleteTodo Y (App.handleToggleTodo X a)
    & App.handleDeleteTodo X (App.handleToggleTodo X a)
      = App.handleDeleteTodo X a].
Proof.
case: a => ts f.
rw /App.handleToggleTodo /App.handleDeleteTodo /App.setTodos /=; split.
- congr App.mkState; rw -!map_comp; apply: eq_map => t /=.
  exact: flipC.
- congr App.mkState; rw -!filter_predI; apply: eq_filter => t /=.
  by rw andbC.
- by rw delete_flip.
- by rw delete_flip flip_absent // ids_deleted.
Qed.

(** X4. Deleting the id of the task just added undoes the add: for an
    accepted title and a fresh id, tasks and filter are as before. *)
Theorem delete_undoes_add (s : Store.State) (uuid T : jsstring) :
  trim T != [::] ->
  uuid \notin Task.ids (Store.tasks s) ->
  Store.app (Store.delete uuid (Store.add uuid T s)) = Store.app s.
Proof.
move=> HT Hf; case: s Hf => [[ts f] fm] /= Hf.
rw /Store.delete /Store.add /Store.run /= handleSubmit_accepts title_onChange //=.
rw /App.handleDeleteTodo /App.handleAddTodo /App.setTodos /=.
by rw filter_cat /= eqxx /= cats0 delete_absent.
Qed.

End Handlers.

(** * Counters and views along the operations *)

Section Counters.

Implicit Types (s : Store.State) (ts : seq Task) (t : Task).

Lemma pendingE s : Store.pending s = count (fun t => ~~ Task.done t) (Store.tasks s).
Proof. by rw /Store.pending /App.pendingCount size_filter. Qed.

Lemma completedE s : Store.completed s = count (fun t => Task.done t) (Store.tasks s).
Proof. by rw /Store.completed /App.doneCount size_filter. Qed.

Lemma tasks_add_accepted s uuid T :
  trim T != [::] ->
  Store.tasks (Store.add uuid T s)
  = Store.tasks s ++ [:: Task.mk uuid (trim T) false].
Proof.
by move=> HT; rw /Store.add /Store.run /= handleSubmit_accepts title_onChange.
Qed.

Lemma filter_add_accepted s uuid T :
  trim T != [::] ->
  App.filter (Store.app (Store.add uuid T s)) = App.filter (Store.app s).
Proof.
by move=> HT; rw /Store.add /Store.run /= handleSubmit_accepts title_onChange.
Qed.

(** With unique ids, the task found under its id is the task itself. *)
Lemma split_at_task ts t :
  uniq (Task.ids ts) -> t \in ts ->
  exists l1 l2,
    [/\ ts = l1 ++ t :: l2,
        Task.id t \notin Task.ids l1 & Task.id t \notin Task.ids l2].
Proof.
move=> Hu Ht.
have Hi : Task.id t \in Task.ids ts by apply: map_f.
have [l1 [t' [l2 [E Hid H1 H2]]]] := split_at_id Hu Hi.
exists l1, l2; split=> //.
move: Ht; rw E mem_cat inE => /or3P [H|/eqP -> //|H].
- by rw (map_f Task.id H) in H1.
- by rw (map_f Task.id H) in H2.
Qed.

(** X5. Whatever the current filter, the footer's "pendientes" is the
    length of the Active view and its "hechas" the length of the Done
    view, and the two views together hold every task once. *)
Theorem counters_are_view_sizes ts (f : jsstring) :
  [/\ App.pendingCount (App.mkState ts f)
      = size (App.filteredTodos (App.mkState ts (FilterBar.value FilterBar.Active))),
      App.doneCount (App.mkState ts f)
      = size (App.filteredTodos (App.mkState ts (FilterBar.value FilterBar.Done)))
    & perm_eq (App.filteredTodos (App.mkState ts (FilterBar.value FilterBar.Active))
               ++ App.filteredTodos (App.mkState ts (FilterBar.value FilterBar.Done)))
              ts].
Proof.
split=> //.
rw filteredTodos_active filteredTodos_done perm_catC.
have /(_ ts) := perm_filterC (fun t => Task.done t) ts.
by rw perm_refl.
Qed.

(** X6. With unique ids, toggling a task of the list moves exactly one
    unit between the two counters: from "hechas" to "pendientes" when the
    task was done, the other way when it was not. *)
Theorem toggle_moves_one_count s t :
  uniq (Task.ids (Store.tasks s)) -> t \in Store.tasks s ->
  if Task.done t then
    Store.pending (Store.toggle (Task.id t) s) = (Store.pending s).+1
    /\ (Store.completed (Store.toggle (Task.id t) s)).+1 = Store.completed s
  else
    (Store.pending (Store.toggle (Task.id t) s)).+1 = Store.pending s
    /\ Store.completed (Store.toggle (Task.id t) s) = (Store.completed s).+1.
Proof.
move=> Hu Ht.
have [l1 [l2 [E H1 H2]]] := split_at_task Hu Ht.
rw !pendingE !completedE tasks_toggle E map_cat /= !flip_absent //.
rw /App.flip eqxx !count_cat /=.
by case: (Task.done t); rw /= ?add0n ?add1n ?addnS.
Qed.

(** X7. An accepted add raises "pendientes" by one and leaves "hechas". *)
Theorem add_counts_as_pending s (uuid T : jsstring) :
  trim T != [::] ->
  Store.pending (Store.add uuid T s) = (Store.pending s).+1
  /\ Store.completed (Store.add uuid T s) = Store.completed s.
Proof.
move=> HT; rw !pendingE !completedE tasks_add_accepted // !count_cat /=.
by rw !addn0 addn1.
Qed.

(** X8. Where an added task shows: under the filter "done" the view does
    not change; under any other filter the new task comes last in it. *)
Theorem view_after_add s (uuid T : jsstring) :
  trim T != [::] ->
  Store.derivedView (Store.add uuid T s)
  = if App.filter (Store.app s) == lit "done" then Store.derivedView s
    else rcons (Store.derivedView s) (Task.mk uuid (trim T) false).
Proof.
move=> HT; rw /Store.derivedView /App.filteredTodos.
rw filter_add_accepted // -/(Store.tasks _) tasks_add_accepted // filter_cat /=.
case Ed: (App.filter (Store.app s) == lit "done").
  by rw (eqP Ed) /= cats0.
by case: (_ == _); rw /= cats1.
Qed.

End Counters.

(** * Invariants of a session *)

Section TrimTwice.

Implicit Types (s u : jsstring) (c : char16).

Lemma trimStart_starts s : if trimStart s is c :: _ then ~~ isStripped c else true.
Proof. by elim: s => [|c s IH] //=; case E: (isStripped c) => //=; rw E. Qed.

Lemma trimStart_kept c s : ~~ isStripped c -> trimStart (c :: s) = c :: s.
Proof. by move=> /negbTE /= ->. Qed.

Lemma trimStart_idem s : trimStart (trimStart s) = trimStart s.
Proof.
have := trimStart_starts s; case: (trimStart s) => [|c r] //.
exact: trimStart_kept.
Qed.

Lemma trimEnd_idem s : trimEnd (trimEnd s) = trimEnd s.
Proof. by rw /trimEnd revK trimStart_idem. Qed.

(** [trimEnd] drops a suffix of stripped code units. *)
Lemma trimEnd_prefix s : exists2 q, all isStripped q & s = trimEnd s ++ q.
Proof.
have [p Hp E] := trimStart_suffix (rev s).
exists (rev p); first by rw all_rev.
by rw /trimEnd -rev_cat -E revK.
Qed.

(** [trimEnd] keeps a first code unit that is not stripped. *)
Lemma trimEnd_kept c s : ~~ isStripped c -> exists r, trimEnd (c :: s) = c :: r.
Proof.
move=> Hc; have [q Hq E] := trimEnd_prefix (c :: s).
case: (trimEnd (c :: s)) E => [|d r] /=.
  by move=> E; move: Hq; rw -E /= (negbTE Hc).
by case=> <- _; exists r.
Qed.

Lemma trim_idem s : trim (trim s) = trim s.
Proof.
rw /trim; have := trimStart_starts s; case: (trimStart s) => [|c r] // Hc.
have [r' E] := trimEnd_kept r Hc.
by rw E trimStart_kept // -E trimEnd_idem.
Qed.

Lemma trimmed_trim s : trim s != [::] -> Inv.trimmed (trim s).
Proof. by move=> H; rw /Inv.trimmed H trim_idem eqxx. Qed.

End TrimTwice.

Section SessionInvariants.

Implicit Types (s : Store.State) (e : Store.Event) (es : seq Store.Event).

Lemma run_invariant (I : Store.State -> bool) :
  (forall s e, I s -> I (Store.step s e)) ->
  forall s es, I s -> I (Store.run s es).
Proof.
move=> Hstep s es; elim: es s => [|e es IH] s //= Hs.
by apply: IH; apply: Hstep.
Qed.

Lemma step_titled s e : Inv.titled s -> Inv.titled (Store.step s e).
Proof.
rw /Inv.titled; case: e => [text|uuid|X|X|m] //= Hs.
- case E: (trim (TodoForm.title (Store.form s)) == [::]).
    by rw handleSubmit_rejects //; apply/eqP.
  rw handleSubmit_accepts ?E // /Store.tasks /= all_cat /= andbT.
  by rw -/(Store.tasks s) Hs /= trimmed_trim // E.
- rw /Store.tasks /= all_map; apply: sub_all Hs => t /=.
  by rw /App.flip; case: ifP.
- by rw /Store.tasks /= all_filter; apply: sub_all Hs => t /= ->; rw implybT.
Qed.

(** X9. Titles stay clean: if every title of the list is non-empty and
    has no white space at either end, the same holds after any sequence
    of events; the form only ever adds trimmed, non-empty titles. *)
Theorem titles_stay_trimmed s es : Inv.titled s -> Inv.titled (Store.run s es).
Proof. by apply: run_invariant => {}s e; apply: step_titled. Qed.

Lemma start_filter (w : App.Platform) s0 :
  Store.start w = Some (Normal s0) -> App.filter (Store.app s0) != [::].
Proof.
rw /Store.start /App.mount.
case: (App.todos_initializer w) => [[ts| |]|e] //=; case=> <- /=.
case: (getItem _ _) => [text|] //.
by rw /truthy; case E: (text != [::]).
Qed.

Lemma step_filter s e :
  App.filter (Store.app (Store.step s e)) =
  if e is Store.SetFilter m then FilterBar.value m else App.filter (Store.app s).
Proof.
case: e => [text|uuid|X|X|m] //=.
by rw /TodoForm.handleSubmit; case: ifP.
Qed.

(** X10. In a session the filter is never the empty string: start-up
    yields the stored text only when it is not empty, "all" otherwise,
    and the buttons set one of their three values. *)
Theorem filter_never_empty (w : App.Platform) s0 es :
  Store.start w = Some (Normal s0) ->
  App.filter (Store.app (Store.run s0 es)) != [::].
Proof.
move/start_filter; elim: es s0 => [|e es IH] s0 //= H0.
by apply: IH; rw step_filter; case: e => // m; case: m.
Qed.

(** X11. Once the filter is the value of one of the three buttons it
    stays so, and a click on a button makes it so: an unknown filter
    restored from storage lasts until the first click at most. *)
Theorem filter_valid_after_click s es :
  Inv.valid_filter s || has Inv.sets_filter es ->
  Inv.valid_filter (Store.run s es).
Proof.
elim: es s => [|e es IH] s /=; first by rw orbF.
move=> H; apply: IH; apply/orP.
case/orP: H => [H|/orP [H|H]]; [left|left|by right];
  rw /Inv.valid_filter step_filter; case: e H => // m _; by case: m.
Qed.

Lemma form_step s e :
  Store.form (Store.step s e) =
  match e with
  | Store.Input v => TodoForm.onChange v (Store.form s)
  | Store.Submit _ =>
      if trim (TodoForm.title (Store.form s)) == [::]
      then TodoForm.mkState (TodoForm.title (Store.form s))
                            TodoForm.emptyTitleMessage
      else TodoForm.initial
  | _ => Store.form s
  end.
Proof.
case: e => [text|uuid|X|X|m] //=.
by rw /TodoForm.handleSubmit /truthy; case: (_ == _).
Qed.

Lemma error_onChange v (f : TodoForm.State) :
  TodoForm.error (TodoForm.onChange v f) = [::].
Proof.
rw /TodoForm.onChange /truthy; case E: (TodoForm.error f == [::]) => //=.
exact/eqP.
Qed.

(** X12. The submit button is disabled exactly when submitting would add
    nothing: line 36 and the guard of [handleSubmit] agree. *)
Theorem disabled_iff_submit_adds_nothing s (uuid : jsstring) :
  TodoFormView.disabled (Store.form s)
  = (Store.tasks (Store.step s (Store.Submit uuid)) == Store.tasks s).
Proof.
rw /TodoFormView.disabled /truthy negbK.
case E: (trim (TodoForm.title (Store.form s)) == [::]) => /=.
  by rw handleSubmit_rejects ?eqxx //; apply/eqP.
rw handleSubmit_accepts ?E // /Store.tasks /=.
by apply/esym/negbTE/eqP => /(congr1 size); rw size_cat /= addn1 => /esym/n_Sn.
Qed.

(** X13. No double add: after an accepted submit the field is empty and
    the button disabled, and submitting again right away adds nothing and
    brings up the validation message. *)
Theorem second_submit_is_rejected s (u1 u2 : jsstring) :
  trim (TodoForm.title (Store.form s)) != [::] ->
  [/\ TodoFormView.disabled (Store.form (Store.step s (Store.Submit u1))),
      Store.tasks (Store.run s [:: Store.Submit u1; Store.Submit u2])
      = Store.tasks s
        ++ [:: Task.mk u1 (trim (TodoForm.title (Store.form s))) false]
    & TodoFormView.alert
        (Store.form (Store.run s [:: Store.Submit u1; Store.Submit u2]))
      = Some TodoForm.emptyTitleMessage].
Proof.
by move=> HT; rw /Store.run /= handleSubmit_accepts //= handleSubmit_rejects.
Qed.

Lemma step_alert_means_blank s e :
  Inv.alert_means_blank s -> Inv.alert_means_blank (Store.step s e).
Proof.
rw /Inv.alert_means_blank /TodoFormView.ariaInvalid /TodoFormView.disabled.
rw form_step; case: e => [v|uuid|X|X|m] //= _.
- by rw error_onChange.
- by case E: (trim (TodoForm.title (Store.form s)) == [::]); rw /= /truthy ?E.
Qed.

(** X14. The validation message is on display only while the field is
    blank: if that holds of a state (as of every start state), it holds
    after any sequence of events; typing always removes the message. *)
Theorem alert_only_over_blank_field s es :
  Inv.alert_means_blank s -> Inv.alert_means_blank (Store.run s es).
Proof. by apply: run_invariant => {}s e; apply: step_alert_means_blank. Qed.

End SessionInvariants.

(** * The filter bar *)

Section Bar.

(** X15. The bar shows as selected the button whose value is the current
    filter: exactly one button for "all", "active" and "done", and none
    for any other filter, such as an unknown one restored from storage. *)
Theorem one_button_selected (f : jsstring) :
  FilterBarView.selected f
  = if f \in [seq b.1 | b <- FilterBar.filters] then [:: f] else [::].
Proof.
rw /FilterBarView.selected /FilterBarView.render /= !inE.
case E1: (f == lit "all"); first by rw (eqP E1).
case E2: (f == lit "active"); first by rw (eqP E2).
by case E3: (f == lit "done"); first by rw (eqP E3).
Qed.

End Bar.

(** * Persistence *)

Section Persistence.

Variable JSON_stringify : seq Task -> jsstring.

Implicit Types (b : Effects.Tab) (st : Storage) (e : Store.Event)
  (es : seq Store.Event).

Local Abbreviation in_sync := (Effects.in_sync JSON_stringify).
Local Abbreviation tab_step := (Effects.step JSON_stringify).
Local Abbreviation tab_run := (Effects.run JSON_stringify).

Lemma getItem_setItem st (k v k' : jsstring) :
  getItem (Effects.setItem st k v) k'
  = if k == k' then Some v else getItem st k'.
Proof.
elim: st => [|[k0 v0] st IH] /=; first by [].
case E0: (k0 == k) => /=.
  by rw (eqP E0); case: (k == k').
by rw IH; case E: (k0 == k') => //; rw -(eqP E) eq_sym E0.
Qed.

Lemma session_run b es :
  Effects.session (tab_run b es) = Store.run (Effects.session b) es.
Proof. by elim: es b => [|e es IH] b //=; rw IH. Qed.

Lemma step_in_sync b e : in_sync b -> in_sync (tab_step b e).
Proof.
case: b => s st; rw /Effects.in_sync /= => /andP [/eqP Ht /eqP Hf].
rw step_filter; case: e => [v|uuid|X|X|m] /=.
- by rw Ht Hf !eqxx.
- rw /Store.tasks /truthy /=.
  case E: (trim (TodoForm.title (Store.form s)) == [::]) => /=.
    by rw handleSubmit_rejects ?Ht ?Hf ?eqxx //; apply/eqP.
  rw handleSubmit_accepts ?E //= /Effects.saveTodos !getItem_setItem /=.
  by rw Hf !eqxx.
- by rw /Effects.saveTodos !getItem_setItem /= Hf !eqxx.
- by rw /Effects.saveTodos !getItem_setItem /= Hf !eqxx.
- case E: (FilterBar.value m == App.filter (Store.app s)).
    by rw Ht Hf (eqP E) !eqxx.
  by rw /Effects.saveFilter !getItem_setItem /= Ht !eqxx.
Qed.

Lemma open_in_sync (w : App.Platform) b0 :
  Effects.open JSON_stringify w = Some (Normal b0) -> in_sync b0.
Proof.
rw /Effects.open; case: (Store.start w) => [[s|e]|] //= [<-].
rw /Effects.in_sync /Effects.saveFilter /Effects.saveTodos /=.
by rw !getItem_setItem /= !eqxx.
Qed.

Lemma run_in_sync b es : in_sync b -> in_sync (tab_run b es).
Proof.
elim: es b => [|e es IH] b //= Hb.
by apply: IH; apply: step_in_sync.
Qed.

(** X16. After the first render and after every event, [localStorage]
    holds under "todos" the serialization of the current task list and
    under "filter" the current filter. *)
Theorem storage_follows_state (w : App.Platform) b0 es :
  Effects.open JSON_stringify w = Some (Normal b0) ->
  in_sync (tab_run b0 es).
Proof. by move/open_in_sync; apply: run_in_sync. Qed.

Lemma run_filter_nonempty (s : Store.State) es :
  App.filter (Store.app s) != [::] ->
  App.filter (Store.app (Store.run s es)) != [::].
Proof.
elim: es s => [|e es IH] s //= H.
by apply: IH; rw step_filter; case: e => // m; case: m.
Qed.

(** X17. Reloading the page restores the session's tasks and filter, with
    an empty form: provided [JSON.stringify] of the task list is not the
    empty string and [JSON.parse] gives the list back from it, mounting
    again on what the tab has stored yields the same [App] state. *)
Theorem reload_restores (w : App.Platform) b0 es :
  Effects.open JSON_stringify w = Some (Normal b0) ->
  JSON_stringify (Store.tasks (Effects.session (tab_run b0 es))) != [::] ->
  App.JSON_parse w (JSON_stringify (Store.tasks (Effects.session (tab_run b0 es))))
  = Normal (App.TaskArray (Store.tasks (Effects.session (tab_run b0 es)))) ->
  Store.start (App.mkPlatform (Effects.stored (tab_run b0 es)) (App.JSON_parse w))
  = Some (Normal (Store.mkState (Store.app (Effects.session (tab_run b0 es)))
                                TodoForm.initial)).
Proof.
move=> Hopen Hne Hparse.
have /andP [/eqP Ht /eqP Hf] := run_in_sync es (open_in_sync Hopen).
have Hfil : App.filter (Store.app (Effects.session (tab_run b0 es))) != [::].
  rw session_run; apply: run_filter_nonempty.
  move: Hopen; rw /Effects.open.
  by case E: (Store.start w) => [[s|e]|] //= [<-] /=; apply: start_filter E.
rw /Store.start /App.mount /App.todos_initializer /App.filter_initializer /=.
rw Ht Hf /truthy Hne Hparse /= Hfil /= /Store.tasks.
by case: (Store.app _).
Qed.

End Persistence.

(** * The list and its delayed delete *)

Section DelayedDelete.

Implicit Types (u : TodoList.State) (s : Store.State) (X Y : jsstring)
  (ts : seq jsstring).

Lemma step_marked u (e : TodoList.Event) :
  TodoList.marked_is_scheduled u ->
  TodoList.marked_is_scheduled (TodoList.step u e).
Proof.
rw /TodoList.marked_is_scheduled; case: e => [e|X|] //=.
- by rw mem_cat mem_seq1 eqxx orbT.
- by rw /TodoList.timeout; case: u => s x [|Z ts].
Qed.

(** X18. A row is never left marked as leaving without its removal being
    scheduled: if the marked id has a pending timer (as at the start,
    when no row is marked), it has one after any sequence of events. *)
Theorem marked_row_is_scheduled u (es : seq TodoList.Event) :
  TodoList.marked_is_scheduled u ->
  TodoList.marked_is_scheduled (TodoList.run u es).
Proof.
elim: es u => [|e es IH] u //= Hu.
by apply: IH; apply: step_marked.
Qed.

Lemma tasks_deletes s ts :
  Store.tasks (foldl (fun s X => Store.delete X s) s ts)
  = [seq t <- Store.tasks s | Task.id t \notin ts].
Proof.
elim: ts s => [|X ts IH] s /=; first by rw filter_predT.
rw IH tasks_delete -filter_predI; apply: eq_filter => t /=.
by rw inE negb_or andbC.
Qed.

Lemma drain_run s (x : option jsstring) ts :
  TodoList.run (TodoList.mkState s x ts) (nseq (size ts) TodoList.Timeout)
  = TodoList.mkState (foldl (fun s X => Store.delete X s) s ts)
                     (if ts is [::] then x else None) [::].
Proof.
elim: ts s x => [|X ts IH] s x //=.
by rw /TodoList.timeout /= IH; case: ts {IH}.
Qed.

(** X19. Every delete that was clicked is carried out: once the pending
    timers have fired, none is left, no row is marked, and the list has
    lost exactly the tasks whose id had a timer; the form and the filter
    are as they were. *)
Theorem drain_removes_clicked u :
  [/\ TodoList.timers (TodoList.drain u) = [::],
      Store.tasks (TodoList.session (TodoList.drain u))
      = [seq t <- Store.tasks (TodoList.session u)
        | Task.id t \notin TodoList.timers u],
      TodoList.timers u != [::] -> TodoList.exitingId (TodoList.drain u) = None,
      Store.form (TodoList.session (TodoList.drain u))
      = Store.form (TodoList.session u)
    & App.filter (Store.app (TodoList.session (TodoList.drain u)))
      = App.filter (Store.app (TodoList.session u))].
Proof.
case: u => s x ts; rw /TodoList.drain /= drain_run /=; split=> //.
- exact: tasks_deletes.
- by case: ts.
- by elim: ts s => [|X ts IH] s //=; rw IH.
- by elim: ts s => [|X ts IH] s //=; rw IH.
Qed.

(** X20. Two deletes clicked before the first timer fires: when it fires,
    the mark is taken off every row although the second delete is still
    pending, so the second row is drawn as a plain row until it goes. *)
Theorem second_row_loses_its_mark u X Y :
  let u' := TodoList.run u
              [:: TodoList.ClickDelete X; TodoList.ClickDelete Y;
                  TodoList.Timeout] in
  [/\ TodoList.exitingId u' = None,
      Y \in TodoList.timers u'
    & forall todo, TodoList.rowClassName (TodoList.exitingId u') todo
                   = lit "todo-item "].
Proof.
case: u => s x [|Z ts] /=; split=> //=.
- by rw mem_seq1.
- by rw !mem_cat !inE eqxx !orbT.
Qed.

Lemma prefix_inj (p : jsstring) : injective (cat p).
Proof. by move=> a b /eqP; rw eqseq_cat // eqxx /= => /eqP. Qed.

Lemma exit_class (x : option jsstring) (t : Task) :
  (TodoList.rowClassName x t == lit "todo-item exit") = (x == Some (Task.id t)).
Proof. by rw /TodoList.rowClassName; case: (x == _). Qed.

(** X21. With unique task ids, the rows the list renders, under any
    filter, have distinct React keys and distinct checkbox ids, there is
    one row per task of the view, and at most one row carries the class
    of a leaving row. *)
Theorem rows_are_distinct u (rows : seq TodoList.Row) :
  uniq (Task.ids (Store.tasks (TodoList.session u))) ->
  TodoList.view u = Some rows ->
  [/\ uniq [seq TodoList.key r | r <- rows],
      uniq [seq TodoList.inputId r | r <- rows],
      size rows = size (Store.derivedView (TodoList.session u))
    & count (fun r => TodoList.className r == lit "todo-item exit") rows <= 1].
Proof.
move=> Hu; rw /TodoList.view /TodoList.render.
set v := Store.derivedView _.
have Hv : uniq (Task.ids v).
  apply: subseq_uniq Hu; apply: map_subseq; exact: filter_subseq.
case: (size v == 0) => // [[<-]]; split.
- by rw -map_comp.
- rw -map_comp (@eq_map _ _ _ (cat (lit "todo-") \o Task.id)) //.
  by rw map_comp (map_inj_uniq (@prefix_inj _)).
- by rw size_map.
- have -> : count (fun r => TodoList.className r == lit "todo-item exit")
                [seq TodoList.mkRow (Task.id todo)
                       (TodoList.rowClassName (TodoList.exitingId u) todo)
                       (TodoItem.checkboxId todo)
                | todo <- v]
              = count (fun t => TodoList.exitingId u == Some (Task.id t)) v.
    by rw count_map; apply: eq_count => t /=; rw exit_class.
  case: (TodoList.exitingId u) => [X|]; last first.
    by rw (@eq_count _ _ pred0) ?count_pred0.
  have -> : count (fun t => Some X == Some (Task.id t)) v
            = count_mem X (Task.ids v).
    by rw /Task.ids count_map; apply: eq_count => t /=; rw eq_sym.
  by rw count_uniq_mem //; case: (_ \in _).
Qed.

End DelayedDelete.

(** * Toggling on any list, and under a filter *)

Section MoreToggle.

Implicit Types (a : App.State) (s : Store.State) (t : Task) (X : jsstring).

(** X22. On every list, repeated ids included, toggling the same id twice
    gives back the state, and deleting the same id twice is deleting it
    once. *)
Theorem toggle_twice_delete_twice a X :
  App.handleToggleTodo X (App.handleToggleTodo X a) = a
  /\ App.handleDeleteTodo X (App.handleDeleteTodo X a) = App.handleDeleteTodo X a.
Proof.
case: a => ts f; rw /App.handleToggleTodo /App.handleDeleteTodo /App.setTodos /=.
by rw mapK ?filter_id //; apply: flipK.
Qed.

Lemma ids_filter_absent X (p : pred Task) (ts : seq Task) :
  X \notin Task.ids ts -> X \notin Task.ids [seq t <- ts | p t].
Proof.
apply: contraNN => /mapP [t Ht ->]; apply: map_f.
by move: Ht; rw mem_filter => /andP [].
Qed.

(** X23. Under the filter "active" or "done", with unique ids, toggling a
    task of the view takes its row out of the view and leaves the other
    rows as they are. *)
Theorem toggle_leaves_the_view s t :
  (App.filter (Store.app s) == lit "active")
  || (App.filter (Store.app s) == lit "done") ->
  uniq (Task.ids (Store.tasks s)) ->
  t \in Store.derivedView s ->
  Store.derivedView (Store.toggle (Task.id t) s)
  = [seq r <- Store.derivedView s | Task.id r != Task.id t].
Proof.
case: s => [[ts f] fm]; rw /Store.derivedView /Store.tasks /Store.toggle /=.
rw /App.filteredTodos /= => Hf Hu; rw mem_filter => /andP [Hp Ht].
have [l1 [l2 [E H1 H2]]] := split_at_task Hu Ht.
rw E map_cat /= !flip_absent // !filter_cat /= /App.flip eqxx /= Hp /= eqxx /=.
rw !delete_absent; try exact: ids_filter_absent.
congr (_ ++ _).
by move: Hp; case/orP: Hf => /eqP -> /=; case: (Task.done t).
Qed.

End MoreToggle.

(** * The further properties at work on the sessions *)

Section MoreWitnesses.

Import Session Visit.

Lemma delete_undoes_add_witness :
  [/\ trim (lit "  Feed cat ") != [::],
      uuid3 \notin Task.ids (Store.tasks busy)
    & Store.app (Store.delete uuid3 (Store.add uuid3 (lit "  Feed cat ") busy))
      = Store.app busy].
Proof.
have H1 : trim (lit "  Feed cat ") != [::] by [].
have H2 : uuid3 \notin Task.ids (Store.tasks busy) by [].
have E := delete_undoes_add H1 H2.
by split.
Defined.

Lemma toggle_moves_one_count_witness :
  [/\ uniq (Task.ids (Store.tasks busy)),
      milk \in Store.tasks busy,
      Store.pending (Store.toggle uuid1 busy) = 2
    & (Store.completed (Store.toggle uuid1 busy)).+1 = 1].
Proof.
have H1 : uniq (Task.ids (Store.tasks busy)) by [].
have H2 : milk \in Store.tasks busy by [].
have [E1 E2] := toggle_moves_one_count H1 H2.
by split.
Defined.

Lemma add_counts_as_pending_witness :
  [/\ trim (lit "  Feed cat ") != [::],
      Store.pending (Store.add uuid3 (lit "  Feed cat ") busy) = 2
    & Store.completed (Store.add uuid3 (lit "  Feed cat ") busy) = 1].
Proof.
have H : trim (lit "  Feed cat ") != [::] by [].
have [E1 E2] := add_counts_as_pending busy uuid3 H.
by split.
Defined.

(** The scenario ends under the filter Done: the task added there does
    not show. *)
Lemma view_after_add_witness :
  trim (lit "  Feed cat ") != [::]
  /\ Store.derivedView (Store.add uuid3 (lit "  Feed cat ") busy)
     = Store.derivedView busy.
Proof.
have H : trim (lit "  Feed cat ") != [::] by [].
have E := view_after_add busy uuid3 H.
by split.
Defined.

Lemma titles_stay_trimmed_witness :
  Inv.titled empty /\ Inv.titled (Store.run empty shopping).
Proof.
have H : Inv.titled empty by [].
have E := titles_stay_trimmed shopping H.
by split.
Defined.

Lemma filter_never_empty_witness :
  Store.start corrupted
  = Some (Normal (Store.mkState (App.mkState [::] (lit "urgent"))
                                TodoForm.initial))
  /\ App.filter
       (Store.app
          (Store.run
             (Store.mkState (App.mkState [::] (lit "urgent")) TodoForm.initial)
             shopping)) != [::].
Proof.
have H : Store.start corrupted
         = Some (Normal (Store.mkState (App.mkState [::] (lit "urgent"))
                                       TodoForm.initial)) by [].
have E := filter_never_empty shopping H.
by split.
Defined.

(** From the unknown filter of the corrupted store, the click of the
    scenario makes the filter valid. *)
Lemma filter_valid_after_click_witness :
  Inv.valid_filter odd_filter || has Inv.sets_filter shopping
  /\ Inv.valid_filter (Store.run odd_filter shopping).
Proof.
have H : Inv.valid_filter odd_filter || has Inv.sets_filter shopping by [].
have E := filter_valid_after_click H.
by split.
Defined.

Lemma second_submit_is_rejected_witness :
  trim (TodoForm.title (Store.form typed)) != [::]
  /\ Store.tasks (Store.run typed [:: Store.Submit uuid3; Store.Submit uuid3])
     = Store.tasks busy ++ [:: Task.mk uuid3 (lit "Feed cat") false].
Proof.
have H : trim (TodoForm.title (Store.form typed)) != [::] by [].
have [_ E _] := second_submit_is_rejected uuid3 uuid3 H.
by split.
Defined.

Lemma alert_only_over_blank_field_witness :
  Inv.alert_means_blank empty
  /\ Inv.alert_means_blank
       (Store.run empty (shopping ++ [:: Store.Submit uuid3])).
Proof.
have H : Inv.alert_means_blank empty by [].
have E := alert_only_over_blank_field (shopping ++ [:: Store.Submit uuid3]) H.
by split.
Defined.

Lemma storage_follows_state_witness :
  Effects.open array_text reloading
  = Some (Normal (Effects.mkTab empty
                    [:: (lit "todos", lit "[]"); (lit "filter", lit "all")]))
  /\ Effects.in_sync array_text
       (Effects.run array_text
          (Effects.mkTab empty
             [:: (lit "todos", lit "[]"); (lit "filter", lit "all")])
          shopping).
Proof.
have H : Effects.open array_text reloading
         = Some (Normal (Effects.mkTab empty
                           [:: (lit "todos", lit "[]");
                               (lit "filter", lit "all")]))
  by [].
have E := storage_follows_state shopping H.
by split.
Defined.

Lemma reload_restores_witness :
  Store.start
    (App.mkPlatform
       (Effects.stored
          (Effects.run array_text
             (Effects.mkTab empty
                [:: (lit "todos", lit "[]"); (lit "filter", lit "all")])
             shopping))
       (App.JSON_parse reloading))
  = Some (Normal (Store.mkState (Store.app busy) TodoForm.initial)).
Proof.
have H : Effects.open array_text reloading
         = Some (Normal (Effects.mkTab empty
                           [:: (lit "todos", lit "[]");
                               (lit "filter", lit "all")]))
  by [].
have H1 : array_text
            (Store.tasks (Effects.session
               (Effects.run array_text
                  (Effects.mkTab empty
                     [:: (lit "todos", lit "[]"); (lit "filter", lit "all")])
                  shopping))) != [::] by [].
exact: (reload_restores H H1 (erefl _)).
Defined.

Lemma marked_row_is_scheduled_witness :
  TodoList.marked_is_scheduled page
  /\ TodoList.marked_is_scheduled
       (TodoList.run page
          [:: TodoList.ClickDelete uuid1; TodoList.User (Store.Toggle uuid2);
              TodoList.ClickDelete uuid2; TodoList.Timeout]).
Proof.
have H : TodoList.marked_is_scheduled page by [].
have E := marked_row_is_scheduled
            [:: TodoList.ClickDelete uuid1; TodoList.User (Store.Toggle uuid2);
                TodoList.ClickDelete uuid2; TodoList.Timeout] H.
by split.
Defined.

Lemma rows_are_distinct_witness :
  [/\ uniq (Task.ids (Store.tasks (TodoList.session page))),
      TodoList.view page = Some page_rows
    & uniq [seq TodoList.key r | r <- page_rows]].
Proof.
have H1 : uniq (Task.ids (Store.tasks (TodoList.session page))) by [].
have H2 : TodoList.view page = Some page_rows by [].
have [E _ _ _] := rows_are_distinct H1 H2.
by split.
Defined.

(** The scenario under the filter "done": un-checking the one task shown
    empties the view. *)
Lemma toggle_leaves_the_view_witness :
  [/\ (App.filter (Store.app busy) == lit "active")
      || (App.filter (Store.app busy) == lit "done"),
      uniq (Task.ids (Store.tasks busy)),
      milk \in Store.derivedView busy
    & Store.derivedView (Store.toggle uuid1 busy) = [::]].
Proof.
have H1 : (App.filter (Store.app busy) == lit "active")
          || (App.filter (Store.app busy) == lit "done") by [].
have H2 : uniq (Task.ids (Store.tasks busy)) by [].
have H3 : milk \in Store.derivedView busy by [].
have E := toggle_leaves_the_view H1 H2 H3.
by split.
Defined.

End MoreWitnesses.
